(** * pyhaproxy: the tree-to-model builder of [pyhaproxy/parse.py]

    A shallow embedding of [Parser] (parse.py) and a verification of the
    properties its specification states about it.

    The grammar module [pegnode] and the model module [config] are imported
    by parse.py and are not part of the sources at hand.  The parse tree is
    therefore data the builders receive (module [pegnode] below holds its
    shape, read off the attribute accesses of parse.py), [pegnode.parse] is a
    section variable, and the classes of [config] are records holding the
    keyword arguments parse.py passes to their constructors (the attributes
    of a Server stripped of the whitespace at their ends). *)

From Stdlib Require Import String Ascii.
From stdpp Require Import gmap strings list fin_maps.

Local Open Scope string_scope.
Local Open Scope list_scope.

(** ** The Python values the builders work with *)

Module py.

(** Exceptions, by class.  parse.py itself only raises plain [Exception];
    [AttributeError] is what reading a missing attribute raises, and
    [ParseError] stands for whatever [pegnode.parse] raises. *)
Inductive exn : Type :=
| Exception (msg : string)
| AttributeError (attr : string)
| ParseError (msg : string).

Inductive result (A : Type) : Type :=
| Return (a : A)
| Raise (e : exn).
Arguments Return {A} a.
Arguments Raise {A} e.

#[export] Instance result_ret : MRet result := fun _ a => Return a.
#[export] Instance result_bind : MBind result := fun _ _ f m =>
  match m with
  | Return a => f a
  | Raise e => Raise e
  end.

Definition returns {A} (m : result A) : bool :=
  match m with Return _ => true | Raise _ => false end.

Definition message (e : exn) : string :=
  match e with
  | Exception msg => msg
  | AttributeError attr => attr
  | ParseError msg => msg
  end.

(** [truthy s] is Python's truth value of a string: non-empty. *)
Definition truthy (s : string) : bool :=
  match s with
  | EmptyString => false
  | String _ _ => true
  end.

(** [s.split(sep)] for a non-empty separator: the pieces between the
    occurrences of [sep], found from the left and not overlapping.
    [skip] counts the characters of a separator that was matched and is
    still to be passed over.  The head of the result is the piece being
    read.  (For an empty separator Python raises ValueError; parse.py only
    passes the literals [' \t'] and [','].) *)
Fixpoint split_from (sep : string) (skip : nat) (s : string) : list string :=
  match s with
  | EmptyString => [EmptyString]
  | String c s' =>
    match skip with
    | S k => split_from sep k s'
    | O =>
      if String.prefix sep s
      then EmptyString :: split_from sep (String.length sep - 1) s'
      else match split_from sep 0 s' with
           | piece :: pieces => String c piece :: pieces
           | [] => [String c EmptyString]
           end
    end
  end.

Definition split (s sep : string) : list string := split_from sep 0 s.

(** [sub in s] *)
Fixpoint contains (s sub : string) : bool :=
  String.prefix sub s ||
  match s with
  | EmptyString => false
  | String _ s' => contains s' sub
  end.

(** [c.isspace()], for a character: space, tab, newline, vertical tab, form
    feed and carriage return. *)
Definition isspace (c : ascii) : bool :=
  match nat_of_ascii c with
  | 9 | 10 | 11 | 12 | 13 | 32 => true
  | _ => false
  end.

(** [s.lstrip()], [s.rstrip()] and [s.strip()]: the text without the
    whitespace at its beginning, at its end, at both. *)
Fixpoint lstrip (s : string) : string :=
  match s with
  | EmptyString => EmptyString
  | String c s' => if isspace c then lstrip s' else s
  end.

Fixpoint rstrip (s : string) : string :=
  match s with
  | EmptyString => EmptyString
  | String c s' =>
    match rstrip s' with
    | EmptyString => if isspace c then EmptyString else String c EmptyString
    | String _ _ as kept => String c kept
    end
  end.

Definition strip (s : string) : string := rstrip (lstrip s).

(** A file system as far as [os.path.exists] and [open(path).read()] see
    it: the readable files and their contents. *)
Abbreviation filesystem := (gmap string string).

End py.
Import py.

(** The two separators of parse.py: [' \t'] (a space followed by a tab) and
    [','] *)
Definition tab : ascii := ascii_of_nat 9.
Definition space_tab : string := String " "%char (String tab EmptyString).
Definition comma : string := ",".

(** ** pegnode: the parse tree *)

(** Modelled from the spec: the node classes of [pyhaproxy/pegnode.py],
    which is not among the sources.  The spec's grammar gives the kinds of
    sections and of lines; the attributes of each node are those parse.py
    reads from it.  A node's [.text] is a string; a node is a record of the
    sub-nodes read.  The class tests [isinstance(node, pegnode.X)] become
    the constructors of [line_node] and [section_node]; the last
    constructor of each is a node of any other class. *)
Module pegnode.

Module ServiceAddress.
Record t := mk { host : string; port : string }.
End ServiceAddress.

Module ConfigLine.
Record t := mk { keyword : string; value : string }.
End ConfigLine.

Module OptionLine.
Record t := mk { keyword : string; value : string }.
End OptionLine.

Module ServerLine.
Record t := mk
  { server_name : string; service_address : ServiceAddress.t; value : string }.
End ServerLine.

Module BindLine.
Record t := mk { service_address : ServiceAddress.t; value : string }.
End BindLine.

Module AclLine.
Record t := mk { acl_name : string; value : string }.
End AclLine.

Module BackendLine.
Record t := mk
  { operator : string; backendtype : string;
    backend_name : string; backend_condition : string }.
End BackendLine.

Module UserLine.
Record t := mk
  { user_name : string; passwd_type : string;
    password : string; groups_fragment : string }.
End UserLine.

Module GroupLine.
Record t := mk { group_name : string; users_fragment : string }.
End GroupLine.

Inductive line_node : Type :=
| ConfigLine (n : ConfigLine.t)
| OptionLine (n : OptionLine.t)
| ServerLine (n : ServerLine.t)
| BindLine (n : BindLine.t)
| AclLine (n : AclLine.t)
| BackendLine (n : BackendLine.t)
| UserLine (n : UserLine.t)
| GroupLine (n : GroupLine.t)
| OtherLine (text : string).

(** Section nodes.  [proxy_name] is [<kind>_header.proxy_name.text];
    [service_address] is [Some] exactly when [<kind>_header.service_address]
    is an instance of [pegnode.ServiceAddress]. *)

Module GlobalSection.
Record t := mk { config_block : list line_node }.
End GlobalSection.

Module DefaultsSection.
Record t := mk { proxy_name : string; config_block : list line_node }.
End DefaultsSection.

Module UserlistSection.
Record t := mk { proxy_name : string; config_block : list line_node }.
End UserlistSection.

Module BackendSection.
Record t := mk { proxy_name : string; config_block : list line_node }.
End BackendSection.

Module ListenSection.
Record t := mk
  { proxy_name : string; service_address : option ServiceAddress.t;
    config_block : list line_node }.
End ListenSection.

Module FrontendSection.
Record t := mk
  { proxy_name : string; service_address : option ServiceAddress.t;
    config_block : list line_node }.
End FrontendSection.

Inductive section_node : Type :=
| GlobalSection (n : GlobalSection.t)
| FrontendSection (n : FrontendSection.t)
| DefaultsSection (n : DefaultsSection.t)
| ListenSection (n : ListenSection.t)
| UserlistSection (n : UserlistSection.t)
| BackendSection (n : BackendSection.t)
| OtherSection (text : string).

Abbreviation tree := (list section_node).

End pegnode.

(** ** config: the typed model *)

(** Modelled from the spec: the classes of [pyhaproxy/config.py], which is
    not among the sources.  Each class is the record of the keyword
    arguments parse.py passes to its constructor, which are the fields the
    spec's data model lists for it ("Server{name, host, port, attributes}",
    "Bind{host, port, attributes}", ...).  The constructors keep their
    arguments as they are passed, but for [Server], whose constructor keeps
    each attribute without the whitespace at its ends. *)
Module config.

Module Server.
Record t := mk
  { name : string; host : string; port : string; attributes : list string }.

(** Modelled from the spec: the constructor
    [config.Server(name, host, port, attributes)] of [config.py].  The
    attributes of a Server are tokens: of each text of the list it is
    passed the constructor keeps [attr.strip()]. *)
Definition new (name host port : string) (attributes : list string) : t :=
  mk name host port (strip <$> attributes).
End Server.

Module Bind.
Record t := mk { host : string; port : string; attributes : list string }.
End Bind.

Module Acl.
Record t := mk { name : string; value : string }.
End Acl.

Module UseBackend.
Record t := mk
  { backend_name : string; operator : string;
    backend_condition : string; is_default : bool }.
End UseBackend.

Module User.
Record t := mk
  { name : string; passwd : string; passwd_type : string;
    group_names : list string }.
End User.

Module Group.
Record t := mk { name : string; user_names : list string }.
End Group.

(** What the lists of a config block hold: a [(keyword, value)] tuple or an
    object of one of the six classes above. *)
Inductive value : Type :=
| VTuple (keyword text : string)
| VServer (s : Server.t)
| VBind (b : Bind.t)
| VAcl (a : Acl.t)
| VUseBackend (u : UseBackend.t)
| VUser (u : User.t)
| VGroup (g : Group.t).

(** Modelled from the spec: the attributes [host] and [port] of the objects
    of [config.py]; by the spec's data model only Server and Bind have
    them, and reading them from another value raises AttributeError. *)
Definition get_host (v : value) : result string :=
  match v with
  | VServer s => Return (Server.host s)
  | VBind b => Return (Bind.host b)
  | _ => Raise (AttributeError "host")
  end.

Definition get_port (v : value) : result string :=
  match v with
  | VServer s => Return (Server.port s)
  | VBind b => Return (Bind.port b)
  | _ => Raise (AttributeError "port")
  end.

(** [collections.defaultdict(list)] with string keys.  Reading a key that is
    absent stores the empty list under it and returns it, so a read returns
    the dictionary too. *)
Abbreviation defaultdict := (gmap string (list value)).

Definition getitem (key : string) (d : defaultdict) : list value * defaultdict :=
  match d !! key with
  | Some l => (l, d)
  | None => ([], <[key := []]> d)
  end.

(** [d[key].append(x)] *)
Definition append (key : string) (x : value) (d : defaultdict) : defaultdict :=
  let '(l, d') := getitem key d in <[key := l ++ [x]]> d'.

(** What [d[key]] would read, leaving [d] as it is. *)
Definition peek (key : string) (d : defaultdict) : list value :=
  default [] (d !! key).

Module Global.
Record t := mk { config_block : defaultdict }.
End Global.

Module Defaults.
Record t := mk { name : string; config_block : defaultdict }.
End Defaults.

Module Userlist.
Record t := mk { name : string; config_block : defaultdict }.
End Userlist.

Module Backend.
Record t := mk { name : string; config_block : defaultdict }.
End Backend.

Module Listen.
Record t := mk
  { name : string; host : string; port : string; config_block : defaultdict }.
End Listen.

Module Frontend.
Record t := mk
  { name : string; host : string; port : string; config_block : defaultdict }.
End Frontend.

Module Configuration.
Record t := mk
  { pegtree : pegnode.tree;
    globall : option Global.t;
    frontends : list Frontend.t;
    defaults : list Defaults.t;
    listens : list Listen.t;
    userlists : list Userlist.t;
    backends : list Backend.t }.

(** Modelled from the spec: the constructor [config.Configuration(pegtree)]
    of [config.py]: no global section yet, every list empty. *)
Definition new (pegtree : pegnode.tree) : t :=
  mk pegtree None [] [] [] [] [].

Definition set_globall (g : Global.t) (c : t) : t :=
  mk (pegtree c) (Some g) (frontends c) (defaults c) (listens c)
     (userlists c) (backends c).

Definition append_frontend (x : Frontend.t) (c : t) : t :=
  mk (pegtree c) (globall c) (frontends c ++ [x]) (defaults c) (listens c)
     (userlists c) (backends c).

Definition append_defaults (x : Defaults.t) (c : t) : t :=
  mk (pegtree c) (globall c) (frontends c) (defaults c ++ [x]) (listens c)
     (userlists c) (backends c).

Definition append_listen (x : Listen.t) (c : t) : t :=
  mk (pegtree c) (globall c) (frontends c) (defaults c) (listens c ++ [x])
     (userlists c) (backends c).

Definition append_userlist (x : Userlist.t) (c : t) : t :=
  mk (pegtree c) (globall c) (frontends c) (defaults c) (listens c)
     (userlists c ++ [x]) (backends c).

Definition append_backend (x : Backend.t) (c : t) : t :=
  mk (pegtree c) (globall c) (frontends c) (defaults c) (listens c)
     (userlists c) (backends c ++ [x]).
End Configuration.

End config.

(** ** parse.py: class Parser *)

Module Parser.
Import pegnode.

(** The attributes of a [Parser] object.  [pegtree] is [None] until
    [build_configuration] has set it. *)
Record t := mk { filestring : string; pegtree : option pegnode.tree }.

Definition default_filepath : string := "/etc/haproxy/haproxy.cfg".

Definition __read_string_from_file
  (fs : filesystem) (filepath : string) : string :=
  match fs !! filepath with
  | Some content => content
  | None => ""
  end.

Definition __init__ (fs : filesystem) (filepath : string) : result t :=
  let filestring := __read_string_from_file fs filepath in
  if truthy filestring
  then Return (mk filestring None)
  else Raise (Exception ("error reading from file " +:+ filepath)).

Definition __build_server (server_node : ServerLine.t) : config.Server.t :=
  let server_name := ServerLine.server_name server_node in
  let host := ServiceAddress.host (ServerLine.service_address server_node) in
  let port := ServiceAddress.port (ServerLine.service_address server_node) in
  let server_attributes := split (ServerLine.value server_node) space_tab in
  config.Server.new server_name host port server_attributes.

Definition __build_bind (bind_node : BindLine.t) : config.Bind.t :=
  let service_address := BindLine.service_address bind_node in
  config.Bind.mk
    (ServiceAddress.host service_address)
    (ServiceAddress.port service_address)
    (split (BindLine.value bind_node) space_tab).

Definition __build_acl (acl_node : AclLine.t) : config.Acl.t :=
  let acl_name := AclLine.acl_name acl_node in
  let acl_value := AclLine.value acl_node in
  config.Acl.mk acl_name acl_value.

Definition __build_usebackend
  (usebackend_node : BackendLine.t) : config.UseBackend.t :=
  let operator := BackendLine.operator usebackend_node in
  let backendtype := BackendLine.backendtype usebackend_node in
  config.UseBackend.mk
    (BackendLine.backend_name usebackend_node)
    operator
    (BackendLine.backend_condition usebackend_node)
    (bool_decide (backendtype = "default_backend")).

Definition __build_user (user_node : UserLine.t) : config.User.t :=
  let groups_fragment := UserLine.groups_fragment user_node in
  let group_names :=
    if truthy groups_fragment then split groups_fragment comma else [] in
  config.User.mk
    (UserLine.user_name user_node)
    (UserLine.password user_node)
    (UserLine.passwd_type user_node)
    group_names.

Definition __build_group (group_node : GroupLine.t) : config.Group.t :=
  let users_fragment := GroupLine.users_fragment group_node in
  let user_names :=
    if truthy users_fragment then split users_fragment comma else [] in
  config.Group.mk (GroupLine.group_name group_node) user_names.

(** The body of the loop of [__build_config_block], for one line. *)
Definition config_block_line
  (config_block_dict : config.defaultdict) (line_node : line_node)
  : config.defaultdict :=
  match line_node with
  | ConfigLine n =>
    config.append "configs"
      (config.VTuple (ConfigLine.keyword n) (ConfigLine.value n))
      config_block_dict
  | OptionLine n =>
    config.append "options"
      (config.VTuple (OptionLine.keyword n) (OptionLine.value n))
      config_block_dict
  | ServerLine n =>
    config.append "servers" (config.VServer (__build_server n))
      config_block_dict
  | BindLine n =>
    config.append "binds" (config.VBind (__build_bind n)) config_block_dict
  | AclLine n =>
    config.append "acls" (config.VAcl (__build_acl n)) config_block_dict
  | BackendLine n =>
    config.append "usebackends" (config.VUseBackend (__build_usebackend n))
      config_block_dict
  | UserLine n =>
    config.append "users" (config.VUser (__build_user n)) config_block_dict
  | GroupLine n =>
    config.append "groups" (config.VGroup (__build_group n)) config_block_dict
  | OtherLine _ => config_block_dict
  end.

Definition __build_config_block
  (config_block_node : list line_node) : config.defaultdict :=
  fold_left config_block_line config_block_node ∅.

Definition build_global (global_node : GlobalSection.t) : config.Global.t :=
  let config_block_dict :=
    __build_config_block (GlobalSection.config_block global_node) in
  config.Global.mk config_block_dict.

Definition build_defaults
  (defaults_node : DefaultsSection.t) : config.Defaults.t :=
  let proxy_name := DefaultsSection.proxy_name defaults_node in
  let config_block_dict :=
    __build_config_block (DefaultsSection.config_block defaults_node) in
  config.Defaults.mk proxy_name config_block_dict.

Definition build_userlist
  (userlist_node : UserlistSection.t) : config.Userlist.t :=
  let proxy_name := UserlistSection.proxy_name userlist_node in
  let config_block_dict :=
    __build_config_block (UserlistSection.config_block userlist_node) in
  config.Userlist.mk proxy_name config_block_dict.

Definition build_backend
  (backend_node : BackendSection.t) : config.Backend.t :=
  let proxy_name := BackendSection.proxy_name backend_node in
  let config_block_dict :=
    __build_config_block (BackendSection.config_block backend_node) in
  config.Backend.mk proxy_name config_block_dict.

(** [build_listen] and [build_frontend] read [config_block_dict['binds']]
    when the header has no address; the read may store an empty list in the
    dictionary, so the dictionary is taken from the read on. *)
Definition build_listen (listen_node : ListenSection.t)
  : result config.Listen.t :=
  let proxy_name := ListenSection.proxy_name listen_node in
  let service_address_node := ListenSection.service_address listen_node in
  let config_block_dict :=
    __build_config_block (ListenSection.config_block listen_node) in
  '(host, port, config_block_dict) ←
    match service_address_node with
    | Some service_address_node =>
      Return (ServiceAddress.host service_address_node,
              ServiceAddress.port service_address_node,
              config_block_dict)
    | None =>
      let '(binds, config_block_dict) :=
        config.getitem "binds" config_block_dict in
      match binds with
      | bind :: _ =>
        host ← config.get_host bind;
        port ← config.get_port bind;
        Return (host, port, config_block_dict)
      | [] =>
        Raise (Exception "Not specify host and port in `listen` definition")
      end
    end;
  Return (config.Listen.mk proxy_name host port config_block_dict).

Definition build_frontend (frontend_node : FrontendSection.t)
  : result config.Frontend.t :=
  let proxy_name := FrontendSection.proxy_name frontend_node in
  let service_address_node := FrontendSection.service_address frontend_node in
  let config_block_dict :=
    __build_config_block (FrontendSection.config_block frontend_node) in
  '(host, port, config_block_dict) ←
    match service_address_node with
    | Some service_address_node =>
      Return (ServiceAddress.host service_address_node,
              ServiceAddress.port service_address_node,
              config_block_dict)
    | None =>
      let '(binds, config_block_dict) :=
        config.getitem "binds" config_block_dict in
      match binds with
      | bind :: _ =>
        host ← config.get_host bind;
        port ← config.get_port bind;
        Return (host, port, config_block_dict)
      | [] =>
        Raise (Exception "Not specify host and port in `frontend` definition")
      end
    end;
  Return (config.Frontend.mk proxy_name host port config_block_dict).

(** The body of the loop of [build_configuration], for one section node. *)
Definition configuration_section
  (configuration : config.Configuration.t) (section_node : section_node)
  : result config.Configuration.t :=
  match section_node with
  | GlobalSection n =>
    Return (config.Configuration.set_globall (build_global n) configuration)
  | FrontendSection n =>
    frontend ← build_frontend n;
    Return (config.Configuration.append_frontend frontend configuration)
  | DefaultsSection n =>
    Return
      (config.Configuration.append_defaults (build_defaults n) configuration)
  | ListenSection n =>
    listen ← build_listen n;
    Return (config.Configuration.append_listen listen configuration)
  | UserlistSection n =>
    Return
      (config.Configuration.append_userlist (build_userlist n) configuration)
  | BackendSection n =>
    Return
      (config.Configuration.append_backend (build_backend n) configuration)
  | OtherSection _ => Return configuration
  end.

Fixpoint for_section_nodes
  (section_nodes : pegnode.tree) (configuration : config.Configuration.t)
  : result config.Configuration.t :=
  match section_nodes with
  | [] => Return configuration
  | section_node :: section_nodes =>
    configuration ← configuration_section configuration section_node;
    for_section_nodes section_nodes configuration
  end.

Section Grammar.

(** [pegnode.parse]: the recognizer, not among the sources. *)
Variable parse : string → result pegnode.tree.

(** [build_configuration] returns the parser object as the call leaves it
    ([self.pegtree] assigned once the text is parsed) and what the call
    returns or raises. *)
Definition build_configuration (self : t) : t * result config.Configuration.t :=
  match parse (filestring self) with
  | Raise e => (self, Raise e)
  | Return pegtree =>
    let self := mk (filestring self) (Some pegtree) in
    let configuration := config.Configuration.new pegtree in
    (self, for_section_nodes pegtree configuration)
  end.

(** [Parser(filepath).build_configuration()] *)
Definition parse_file (fs : filesystem) (filepath : string)
  : result config.Configuration.t :=
  self ← __init__ fs filepath;
  (build_configuration self).2.

End Grammar.

End Parser.

(** * The vocabulary of the properties *)

Import pegnode.


(** [sep.join(pieces)] *)
Fixpoint join (sep : string) (pieces : list string) : string :=
  match pieces with
  | [] => EmptyString
  | [piece] => piece
  | piece :: pieces => piece +:+ sep +:+ join sep pieces
  end.

(** What one line adds under [key]: what the key reads after the line has
    been put in an empty dictionary. *)
Definition added (key : string) (line : line_node) : list config.value :=
  config.peek key (Parser.config_block_line ∅ line).

(** The lines of each kind, in source order. *)
Definition config_lines (lines : list line_node) : list ConfigLine.t :=
  omap (λ line, match line with ConfigLine n => Some n | _ => None end) lines.

Definition option_lines (lines : list line_node) : list OptionLine.t :=
  omap (λ line, match line with OptionLine n => Some n | _ => None end) lines.

Definition server_lines (lines : list line_node) : list ServerLine.t :=
  omap (λ line, match line with ServerLine n => Some n | _ => None end) lines.

Definition bind_lines (lines : list line_node) : list BindLine.t :=
  omap (λ line, match line with BindLine n => Some n | _ => None end) lines.

Definition user_lines (lines : list line_node) : list UserLine.t :=
  omap (λ line, match line with UserLine n => Some n | _ => None end) lines.

Definition group_lines (lines : list line_node) : list GroupLine.t :=
  omap (λ line, match line with GroupLine n => Some n | _ => None end) lines.

(** The (keyword, value) pair of a generic-config line and of an option
    line. *)
Definition config_pair (n : ConfigLine.t) : config.value :=
  config.VTuple (ConfigLine.keyword n) (ConfigLine.value n).

Definition option_pair (n : OptionLine.t) : config.value :=
  config.VTuple (OptionLine.keyword n) (OptionLine.value n).

(** An error names a section when the section's name is part of its
    message. *)
Definition names_section (e : exn) (name : string) : bool :=
  contains (message e) name.

(** Building the frontend section raises an error that names it. *)
Definition raises_naming_section (n : FrontendSection.t) : Prop :=
  ∃ e, Parser.build_frontend n = Raise e ∧
       names_section e (FrontendSection.proxy_name n) = true.

(** The global sections of a tree, in source order. *)
Definition global_sections (tree : list section_node) : list GlobalSection.t :=
  omap (λ n, match n with GlobalSection g => Some g | _ => None end) tree.

(** The section nodes of the six kinds [build_configuration] tests for. *)
Definition handled (n : section_node) : bool :=
  match n with
  | OtherSection _ => false
  | _ => true
  end.

(** Sample nodes. *)
Definition maxconn (text : string) : line_node :=
  ConfigLine (ConfigLine.mk "maxconn" text).

Definition bind_8080 : BindLine.t :=
  BindLine.mk (ServiceAddress.mk "127.0.0.1" "8080") "".

Definition bind_9090 : BindLine.t :=
  BindLine.mk (ServiceAddress.mk "127.0.0.1" "9090") "".

Definition server_web1 : ServerLine.t :=
  ServerLine.mk "web1" (ServiceAddress.mk "10.0.0.1" "80")
    "maxconn 1024 weight 3 check inter 2000 rise 2 fall 3".


Definition server_cut : ServerLine.t :=
  ServerLine.mk "web2" (ServiceAddress.mk "10.0.0.2" "80")
    (" check" +:+ space_tab +:+ "inter 2000 ").


Definition global_1024 : GlobalSection.t := GlobalSection.mk [maxconn "1024"].
Definition global_2048 : GlobalSection.t := GlobalSection.mk [maxconn "2048"].

Definition two_globals : list section_node :=
  [GlobalSection global_1024;
   BackendSection (BackendSection.mk "app" []);
   GlobalSection global_2048;
   OtherSection "# end"].

(** A recognizer that gives [two_globals] for every text, and the
    Configuration assembled from it. *)
Definition parse_two_globals (text : string) : result pegnode.tree :=
  Return two_globals.

Definition two_globals_configuration : config.Configuration.t :=
  config.Configuration.mk two_globals
    (Some (Parser.build_global global_2048)) [] [] [] []
    [Parser.build_backend (BackendSection.mk "app" [])].

(** A file system whose only file is empty. *)
Definition one_empty_file : filesystem := {[ "haproxy.cfg" := "" ]}.

(** ** More vocabulary: blocks, sections and outcomes *)

Definition acl_lines (lines : list line_node) : list AclLine.t :=
  omap (λ line, match line with AclLine n => Some n | _ => None end) lines.

Definition backend_lines (lines : list line_node) : list BackendLine.t :=
  omap (λ line, match line with BackendLine n => Some n | _ => None end) lines.

(** The eight keys [__build_config_block] appends under. *)
Definition block_keys : list string :=
  ["configs"; "options"; "servers"; "binds";
   "acls"; "usebackends"; "users"; "groups"].

(** The lines of the eight kinds, as against blank lines, comments and
    whatever else the tree holds. *)
Definition classified (line : line_node) : bool :=
  match line with
  | OtherLine _ => false
  | _ => true
  end.

(** The keys a dictionary holds are among the eight, each with a list that
    is not empty. *)
Definition well_keyed (d : gmap string (list config.value)) : Prop :=
  ∀ key l, d !! key = Some l → key ∈ block_keys ∧ l ≠ [].

(** The number of values a block holds under the eight keys. *)
Definition total_entries (block : gmap string (list config.value)) : nat :=
  sum_list ((λ key, length (config.peek key block)) <$> block_keys).

(** The number of times a character occurs in a text. *)
Fixpoint count_char (c : ascii) (s : string) : nat :=
  match s with
  | EmptyString => 0
  | String d s' => (if Ascii.eqb c d then 1 else 0) + count_char c s'
  end.

(** The sections of each kind, in source order. *)
Definition frontend_sections (tree : list section_node)
  : list FrontendSection.t :=
  omap (λ n, match n with FrontendSection f => Some f | _ => None end) tree.

Definition defaults_sections (tree : list section_node)
  : list DefaultsSection.t :=
  omap (λ n, match n with DefaultsSection d => Some d | _ => None end) tree.

Definition listen_sections (tree : list section_node)
  : list ListenSection.t :=
  omap (λ n, match n with ListenSection l => Some l | _ => None end) tree.

Definition userlist_sections (tree : list section_node)
  : list UserlistSection.t :=
  omap (λ n, match n with UserlistSection u => Some u | _ => None end) tree.

Definition backend_sections (tree : list section_node)
  : list BackendSection.t :=
  omap (λ n, match n with BackendSection b => Some b | _ => None end) tree.

(** A header address or, failing that, a bind line. *)
Definition has_address
  (service_address : option ServiceAddress.t) (lines : list line_node) : bool :=
  match service_address with
  | Some _ => true
  | None =>
    match bind_lines lines with
    | [] => false
    | _ :: _ => true
    end
  end.

(** The sections that have what their builder needs: every section but a
    frontend or listen section without address. *)
Definition resolvable (n : section_node) : bool :=
  match n with
  | FrontendSection f =>
    has_address (FrontendSection.service_address f)
                (FrontendSection.config_block f)
  | ListenSection l =>
    has_address (ListenSection.service_address l)
                (ListenSection.config_block l)
  | _ => true
  end.

(** The two exceptions of parse.py's builders, by kind of section. *)
Definition missing_address (n : section_node) : exn :=
  match n with
  | ListenSection _ =>
    Exception "Not specify host and port in `listen` definition"
  | _ => Exception "Not specify host and port in `frontend` definition"
  end.

(** More sample nodes. *)
Definition frontend_web : FrontendSection.t :=
  FrontendSection.mk "web" None [BindLine bind_8080; BindLine bind_9090].

Definition listen_stats : ListenSection.t :=
  ListenSection.mk "stats" None [maxconn "10"].

Definition web_then_stats : list section_node :=
  [DefaultsSection (DefaultsSection.mk "http" [maxconn "100"]);
   FrontendSection frontend_web;
   ListenSection listen_stats;
   FrontendSection (FrontendSection.mk "late" None [])].

Definition parse_web_then_stats (text : string) : result pegnode.tree :=
  Return web_then_stats.

Definition web_only : list section_node :=
  [OtherSection "# web";
   FrontendSection frontend_web;
   BackendSection (BackendSection.mk "app" [ServerLine server_web1])].

Definition parse_web_only (text : string) : result pegnode.tree :=
  Return web_only.

(** A file system with one file of one line. *)
Definition one_global_file : filesystem := {[ "haproxy.cfg" := "global" ]}.

(** * Properties *)

(** ** Strings and [split] *)

Section Split.





Lemma split_from_nonempty (sep : string) (skip : nat) (s : string) :
  split_from sep skip s ≠ [].
Proof.
  revert skip. induction s as [|c s IH]; intros skip; [done|].
  destruct skip as [|k]; cbn [split_from]; [|apply IH].
  destruct (String.prefix sep (String c s)); [done|].
  specialize (IH 0). by destruct (split_from sep 0 s).
Qed.

Lemma append_cons (c : ascii) (s t : string) :
  String c s +:+ t = String c (s +:+ t).
Proof. done. Qed.

Lemma prefix_append (sep s : string) :
  String.prefix sep s = true → ∃ rest, s = sep +:+ rest.
Proof.
  revert s. induction sep as [|a sep IH]; intros s Hp.
  - by exists s.
  - destruct s as [|c s]; [done|]. simpl in Hp.
    destruct (ascii_dec a c) as [->|]; [|done].
    destruct (IH s Hp) as [rest ->]. by exists rest.
Qed.

Lemma prefix_append_l (sep s t : string) :
  String.prefix sep s = true → String.prefix sep (s +:+ t) = true.
Proof.
  revert s. induction sep as [|a sep IH]; intros s Hp.
  { by destruct (s +:+ t). }
  destruct s as [|c s]; [done|]. rewrite append_cons. simpl in *.
  destruct (ascii_dec a c); [by apply IH|done].
Qed.

(** The characters of a matched separator are passed over. *)
Lemma split_from_skip (sep pre s : string) :
  split_from sep (String.length pre) (pre +:+ s) = split_from sep 0 s.
Proof. induction pre as [|c pre IH]; [done|]. by rewrite append_cons. Qed.

Lemma join_cons (sep piece : string) (pieces : list string) :
  pieces ≠ [] → join sep (piece :: pieces) = piece +:+ sep +:+ join sep pieces.
Proof. by destruct pieces. Qed.

Lemma length_append (s t : string) :
  String.length (s +:+ t) = String.length s + String.length t.
Proof. induction s as [|c s IH]; [done|]. rewrite append_cons. simpl. lia. Qed.

(** The pieces of a split, joined by the separator, are the text. *)
Lemma join_split_bounded (n : nat) (a : ascii) (sep s : string) :
  (String.length s ≤ n)%nat →
  join (String a sep) (split s (String a sep)) = s.
Proof.
  unfold split. revert s. induction n as [|n IH]; intros s Hlen.
  - destruct s; [done|simpl in Hlen; lia].
  - destruct s as [|c s]; [done|]. simpl in Hlen.
    cbn [split_from].
    destruct (String.prefix (String a sep) (String c s)) eqn:Hp.
    + apply prefix_append in Hp as [rest Hrest].
      rewrite append_cons in Hrest. injection Hrest as -> ->.
      replace (String.length (String a sep) - 1) with (String.length sep)
        by (simpl; lia).
      rewrite split_from_skip, join_cons by apply split_from_nonempty.
      rewrite IH; [done|]. rewrite length_append in Hlen. lia.
    + pose proof (split_from_nonempty (String a sep) 0 s) as Hne.
      pose proof (IH s ltac:(lia)) as Hs.
      destruct (split_from (String a sep) 0 s) as [|p ps]; [done|].
      destruct ps as [|q ps]; cbn [join] in *; by rewrite <- Hs.
Qed.

Lemma join_split (a : ascii) (sep s : string) :
  join (String a sep) (split s (String a sep)) = s.
Proof. by apply (join_split_bounded (String.length s)). Qed.

(** The piece being read is the beginning of the text. *)
Lemma split_head_prefix (a : ascii) (sep s piece : string)
    (pieces : list string) :
  split s (String a sep) = piece :: pieces → ∃ rest, s = piece +:+ rest.
Proof.
  intros Hsplit. pose proof (join_split a sep s) as Hjoin.
  rewrite Hsplit in Hjoin. destruct pieces as [|q qs].
  - exists EmptyString. simpl in Hjoin. subst piece.
    clear. induction s as [|c s IH]; [done|]. by rewrite append_cons, <- IH.
  - rewrite join_cons in Hjoin by done. eauto.
Qed.

(** No piece of a split has the separator in it. *)
Lemma split_from_pieces (a : ascii) (sep s : string) (skip : nat) :
  Forall (λ piece, contains piece (String a sep) = false)
         (split_from (String a sep) skip s).
Proof.
  revert skip. induction s as [|c s IH]; intros skip.
  - by repeat constructor.
  - destruct skip as [|k]; cbn [split_from]; [|apply IH].
    destruct (String.prefix (String a sep) (String c s)) eqn:Hp.
    + constructor; [done|apply IH].
    + pose proof (IH 0) as Hs.
      destruct (split_from (String a sep) 0 s) as [|p ps] eqn:Hsplit.
      { by apply split_from_nonempty in Hsplit. }
      apply Forall_cons in Hs as [Hhead Htail].
      constructor; [|done].
      cbn [contains]. rewrite Hhead, orb_false_r.
      destruct (String.prefix (String a sep) (String c p)) eqn:Hcp; [|done].
      apply (split_head_prefix a sep s p ps) in Hsplit as [rest ->].
      apply (prefix_append_l _ _ rest) in Hcp.
      rewrite append_cons in Hcp. congruence.
Qed.

Lemma split_pieces (a : ascii) (sep s : string) :
  Forall (λ piece, contains piece (String a sep) = false)
         (split s (String a sep)).
Proof. apply split_from_pieces. Qed.

(** *** [strip] *)









End Split.

(** ** The defaultdict *)

Section Defaultdict.
Import config.

Implicit Types (d : gmap string (list value)) (key : string) (x : value).

Lemma getitem_peek key d : (getitem key d).1 = peek key d.
Proof. unfold getitem, peek. by destruct (d !! key). Qed.

(** Reading a key does not change what any key reads. *)
Lemma peek_getitem key key' d : peek key' (getitem key d).2 = peek key' d.
Proof.
  unfold getitem, peek. destruct (d !! key) eqn:Hk; [done|]. simpl.
  destruct (decide (key = key')) as [<-|Hne].
  - by rewrite lookup_insert_eq, Hk.
  - by rewrite lookup_insert_ne.
Qed.

(** Reading a key that holds a non-empty list leaves the dictionary as it
    is. *)
Lemma getitem_present key d x l :
  peek key d = x :: l → getitem key d = (x :: l, d).
Proof.
  unfold getitem, peek. destruct (d !! key); simpl; [by intros ->|done].
Qed.

Lemma peek_append_eq key x d : peek key (append key x d) = peek key d ++ [x].
Proof.
  unfold append, getitem, peek.
  destruct (d !! key); by rewrite lookup_insert_eq.
Qed.

Lemma peek_append_ne key key' x d :
  key ≠ key' → peek key' (append key x d) = peek key' d.
Proof.
  intros Hne. unfold append, getitem, peek.
  destruct (d !! key); by rewrite !lookup_insert_ne.
Qed.

Lemma peek_append key key' x d :
  peek key' (append key x d) =
  peek key' d ++ (if decide (key = key') then [x] else []).
Proof.
  case_decide as Hk.
  - subst. apply peek_append_eq.
  - rewrite app_nil_r. by apply peek_append_ne.
Qed.

Lemma peek_empty key : peek key (∅ : gmap string (list value)) = [].
Proof. done. Qed.

End Defaultdict.

(** ** The config block *)

Section ConfigBlock.
Import config Parser.

Implicit Types (d : gmap string (list value)) (key : string).
Implicit Types (line : line_node) (lines : list line_node).

Lemma peek_config_block_line key d line :
  peek key (config_block_line d line) = peek key d ++ added key line.
Proof.
  unfold added.
  destruct line; cbn [config_block_line];
    rewrite ?peek_append, ?peek_empty, ?app_nil_r; done.
Qed.

Lemma peek_fold_config_block_line key lines d :
  peek key (fold_left config_block_line lines d) =
  peek key d ++ concat (map (added key) lines).
Proof.
  revert d. induction lines as [|line lines IH]; intros d; simpl.
  - by rewrite app_nil_r.
  - by rewrite IH, peek_config_block_line, <- app_assoc.
Qed.

(** Every list of the built block is the lines' contributions to it, in
    the order of the lines. *)
Lemma peek_build_config_block key lines :
  peek key (__build_config_block lines) = concat (map (added key) lines).
Proof. unfold __build_config_block. apply peek_fold_config_block_line. Qed.

Lemma concat_added_omap {A} key (pick : line_node → option A)
    (build : A → value) lines :
  (∀ line, added key line = option_list (build <$> pick line)) →
  concat (map (added key) lines) = build <$> omap pick lines.
Proof.
  intros Hadd. induction lines as [|line lines IH]; [done|].
  simpl. rewrite IH, Hadd. by destruct (pick line).
Qed.

Lemma peek_configs lines :
  peek "configs" (__build_config_block lines) =
  config_pair <$> config_lines lines.
Proof.
  rewrite peek_build_config_block. apply concat_added_omap.
  by intros [].
Qed.

Lemma peek_options lines :
  peek "options" (__build_config_block lines) =
  option_pair <$> option_lines lines.
Proof.
  rewrite peek_build_config_block. apply concat_added_omap.
  by intros [].
Qed.

Lemma peek_servers lines :
  peek "servers" (__build_config_block lines) =
  (λ n, VServer (__build_server n)) <$> server_lines lines.
Proof.
  rewrite peek_build_config_block. apply concat_added_omap.
  by intros [].
Qed.

Lemma peek_binds lines :
  peek "binds" (__build_config_block lines) =
  (λ n, VBind (__build_bind n)) <$> bind_lines lines.
Proof.
  rewrite peek_build_config_block. apply concat_added_omap.
  by intros [].
Qed.

Lemma peek_users lines :
  peek "users" (__build_config_block lines) =
  (λ n, VUser (__build_user n)) <$> user_lines lines.
Proof.
  rewrite peek_build_config_block. apply concat_added_omap.
  by intros [].
Qed.

Lemma peek_groups lines :
  peek "groups" (__build_config_block lines) =
  (λ n, VGroup (__build_group n)) <$> group_lines lines.
Proof.
  rewrite peek_build_config_block. apply concat_added_omap.
  by intros [].
Qed.

End ConfigBlock.

(** ** Address resolution *)

Section Address.
Import config Parser.

Implicit Types (lines : list line_node) (kind name : string).

(** The read of ['binds'] in a built block, by cases on the bind lines of
    the section: no bind line, the read gives the empty list; a first bind
    line, the read gives the block as it was built. *)
Ltac read_binds lines :=
  let Hbinds := fresh "Hbinds" in
  let Hget := fresh "Hget" in
  pose proof (peek_binds lines) as Hbinds;
  destruct (bind_lines lines) as [|? ?]; simpl in Hbinds;
  [ pose proof (getitem_peek "binds" (__build_config_block lines)) as Hget;
    rewrite Hbinds in Hget;
    destruct (getitem "binds" (__build_config_block lines)) as [? ?];
    simpl in Hget; subst
  | rewrite (getitem_present _ _ _ _ Hbinds) ].

Lemma bind_lines_app lines lines' :
  bind_lines (lines ++ lines') = bind_lines lines ++ bind_lines lines'.
Proof. unfold bind_lines. apply omap_app. Qed.

Lemma build_frontend_header name address lines :
  build_frontend (FrontendSection.mk name (Some address) lines) =
  Return (Frontend.mk name (ServiceAddress.host address)
            (ServiceAddress.port address) (__build_config_block lines)).
Proof. done. Qed.

Lemma build_listen_header name address lines :
  build_listen (ListenSection.mk name (Some address) lines) =
  Return (Listen.mk name (ServiceAddress.host address)
            (ServiceAddress.port address) (__build_config_block lines)).
Proof. done. Qed.

Lemma build_frontend_binds name lines :
  build_frontend (FrontendSection.mk name None lines) =
  match bind_lines lines with
  | b :: _ =>
    Return (Frontend.mk name
              (ServiceAddress.host (BindLine.service_address b))
              (ServiceAddress.port (BindLine.service_address b))
              (__build_config_block lines))
  | [] =>
    Raise (Exception "Not specify host and port in `frontend` definition")
  end.
Proof.
  unfold build_frontend. cbn [FrontendSection.proxy_name
    FrontendSection.service_address FrontendSection.config_block].
  read_binds lines; done.
Qed.

Lemma build_listen_binds name lines :
  build_listen (ListenSection.mk name None lines) =
  match bind_lines lines with
  | b :: _ =>
    Return (Listen.mk name
              (ServiceAddress.host (BindLine.service_address b))
              (ServiceAddress.port (BindLine.service_address b))
              (__build_config_block lines))
  | [] =>
    Raise (Exception "Not specify host and port in `listen` definition")
  end.
Proof.
  unfold build_listen. cbn [ListenSection.proxy_name
    ListenSection.service_address ListenSection.config_block].
  read_binds lines; done.
Qed.

(** A frontend or listen object that is built holds the block of its
    section's lines. *)
Lemma build_frontend_config_block (n : FrontendSection.t) :
  match build_frontend n with
  | Return f =>
    Frontend.config_block f =
    __build_config_block (FrontendSection.config_block n)
  | Raise _ => True
  end.
Proof.
  destruct n as [name [address|] lines].
  - by rewrite build_frontend_header.
  - rewrite build_frontend_binds. by destruct (bind_lines lines).
Qed.

Lemma build_listen_config_block (n : ListenSection.t) :
  match build_listen n with
  | Return l =>
    Listen.config_block l =
    __build_config_block (ListenSection.config_block n)
  | Raise _ => True
  end.
Proof.
  destruct n as [name [address|] lines].
  - by rewrite build_listen_header.
  - rewrite build_listen_binds. by destruct (bind_lines lines).
Qed.

(** C1: a frontend or listen section without a header address and with at
    least one bind line is built with the host and port of the first Bind
    of its config block, which is the Bind of the first bind line of the
    source ([b], after the lines [before], none of which is a bind line);
    the lines [after] it, binds or not, play no role. *)
Theorem first_bind_wins name (before after : list line_node) (b : BindLine.t) :
  bind_lines before = [] →
  let lines := before ++ BindLine b :: after in
  let block := __build_config_block lines in
  let first := __build_bind b in
  head (peek "binds" block) = Some (VBind first) ∧
  build_frontend (FrontendSection.mk name None lines) =
    Return (Frontend.mk name (Bind.host first) (Bind.port first) block) ∧
  build_listen (ListenSection.mk name None lines) =
    Return (Listen.mk name (Bind.host first) (Bind.port first) block).
Proof.
  intros Hbefore lines block first.
  assert (bind_lines lines = b :: bind_lines after) as Hlines.
  { unfold lines. rewrite bind_lines_app, Hbefore. done. }
  split_and!.
  - unfold block. by rewrite peek_binds, Hlines.
  - by rewrite build_frontend_binds, Hlines.
  - by rewrite build_listen_binds, Hlines.
Qed.

Lemma first_bind_wins_web :
  bind_lines [OtherLine "# web"] = [] ∧
  build_frontend
    (FrontendSection.mk "web" None
       [OtherLine "# web"; BindLine bind_8080; BindLine bind_9090]) =
  Return (Frontend.mk "web" "127.0.0.1" "8080"
            (__build_config_block
               [OtherLine "# web"; BindLine bind_8080; BindLine bind_9090])).
Proof.
  split; [reflexivity|].
  apply (first_bind_wins "web" [OtherLine "# web"] [BindLine bind_9090]
           bind_8080).
  reflexivity.
Defined.

(** C2: with an address in the header, the host and port of the built
    frontend or listen object are the two texts of that address as they
    are, whatever they are, and whatever lines (binds included) the body
    has. *)
Theorem header_address_verbatim name (host port : string) lines :
  build_frontend
    (FrontendSection.mk name (Some (ServiceAddress.mk host port)) lines) =
    Return (Frontend.mk name host port (__build_config_block lines)) ∧
  build_listen
    (ListenSection.mk name (Some (ServiceAddress.mk host port)) lines) =
    Return (Listen.mk name host port (__build_config_block lines)).
Proof. by rewrite build_frontend_header, build_listen_header. Qed.

(** C3 fails as stated: the frontend section [web] without address and
    without bind raises an error that does not name it. *)
Lemma missing_address_does_not_name_web :
  ¬ raises_naming_section (FrontendSection.mk "web" None []).
Proof. intros (e & He & Hname). by inversion He; subst e. Qed.

(** C3, amended: a frontend or listen section with neither a header
    address nor a bind line is not built: the build raises a plain
    Exception whose message is fixed for the kind of section (it has the
    word `frontend` or `listen` and is the same for every section name),
    and returns no object. *)
Theorem missing_address_raises name lines :
  bind_lines lines = [] →
  build_frontend (FrontendSection.mk name None lines) =
    Raise (Exception "Not specify host and port in `frontend` definition") ∧
  build_listen (ListenSection.mk name None lines) =
    Raise (Exception "Not specify host and port in `listen` definition").
Proof.
  intros Hnone. by rewrite build_frontend_binds, build_listen_binds, Hnone.
Qed.

Lemma missing_address_raises_web :
  bind_lines [ConfigLine (ConfigLine.mk "mode" "http")] = [] ∧
  build_frontend
    (FrontendSection.mk "web" None [ConfigLine (ConfigLine.mk "mode" "http")]) =
  Raise (Exception "Not specify host and port in `frontend` definition").
Proof.
  split; [reflexivity|].
  apply (missing_address_raises "web" [ConfigLine (ConfigLine.mk "mode" "http")]).
  reflexivity.
Defined.

End Address.

(** ** Lines and entities *)

Section Lines.
Import config Parser.

Implicit Types (lines : list line_node).

(** C4: the [configs] and [options] lists of a built config block are the
    (keyword, value) pairs of the generic-config lines and of the option
    lines of the section, one pair per line and in the order of the lines,
    duplicates included; every section builder hands on the block built
    from its section's lines; and a global section with [maxconn 1024]
    then [maxconn 2048] has both pairs, in that order. *)
Theorem configs_options_order lines :
  let block := __build_config_block lines in
  (peek "configs" block = config_pair <$> config_lines lines ∧
   peek "options" block = option_pair <$> option_lines lines) ∧
  (length (peek "configs" block) = length (config_lines lines) ∧
   length (peek "options" block) = length (option_lines lines)) ∧
  (Global.config_block (build_global (GlobalSection.mk lines)) = block ∧
   (∀ name,
     Defaults.config_block (build_defaults (DefaultsSection.mk name lines))
       = block ∧
     Userlist.config_block (build_userlist (UserlistSection.mk name lines))
       = block ∧
     Backend.config_block (build_backend (BackendSection.mk name lines))
       = block) ∧
   (∀ name address,
     match build_frontend (FrontendSection.mk name address lines) with
     | Return f => Frontend.config_block f = block
     | Raise _ => True
     end ∧
     match build_listen (ListenSection.mk name address lines) with
     | Return l => Listen.config_block l = block
     | Raise _ => True
     end)) ∧
  peek "configs"
    (Global.config_block
       (build_global (GlobalSection.mk [maxconn "1024"; maxconn "2048"]))) =
  [VTuple "maxconn" "1024"; VTuple "maxconn" "2048"].
Proof.
  intros block. split_and!.
  - apply peek_configs.
  - apply peek_options.
  - unfold block. by rewrite peek_configs, length_fmap.
  - unfold block. by rewrite peek_options, length_fmap.
  - done.
  - done.
  - intros name address. split.
    + apply (build_frontend_config_block (FrontendSection.mk name address lines)).
    + apply (build_listen_config_block (ListenSection.mk name address lines)).
  - done.
Qed.




(** A value text with a space and a tab in it is cut there: the Server has
    the two pieces stripped, a Bind of the same value text has them as
    they are. *)
Example server_attributes_cut :
  Server.attributes (__build_server server_cut) = ["check"; "inter 2000"] ∧
  Bind.attributes
    (__build_bind
       (BindLine.mk (ServiceAddress.mk "*" "80") (ServerLine.value server_cut)))
  = [" check"; "inter 2000 "].
Proof. by split. Qed.

(** Matches are taken from the left and do not overlap. *)
Example split_leftmost : split "xaaay" "aa" = ["x"; "ay"].
Proof. reflexivity. Qed.

(** Where the two characters do occur the text is cut there, and a tab or a
    space alone does not cut. *)
Example split_space_tab_cuts :
  split ("check" +:+ space_tab +:+ "inter 2000" +:+ String tab "rise 2")
        space_tab =
  ["check"; "inter 2000" +:+ String tab "rise 2"].
Proof. reflexivity. Qed.

(** C8: the userlist body [group G1], [user alice password x1 groups G1]
    is built into the Group G1 with no user names and the User alice with
    passwd x1 and the group names [G1], the groups fragment split at the
    commas; a fragment that is absent (empty text) gives no names, not one
    empty name; and whatever the lines of a block, its Groups are built
    from the group lines alone, each from the users fragment of its own
    line. *)
Theorem userlist_group_then_user (name passwd_type : string) :
  let body :=
    [GroupLine (GroupLine.mk "G1" "");
     UserLine (UserLine.mk "alice" passwd_type "x1" "G1")] in
  let userlist := build_userlist (UserlistSection.mk name body) in
  (Userlist.name userlist = name ∧
   peek "groups" (Userlist.config_block userlist) =
     [VGroup (Group.mk "G1" [])] ∧
   peek "users" (Userlist.config_block userlist) =
     [VUser (User.mk "alice" "x1" passwd_type ["G1"])]) ∧
  (∀ n : UserLine.t,
     User.group_names (__build_user n) =
     if truthy (UserLine.groups_fragment n)
     then split (UserLine.groups_fragment n) comma else []) ∧
  (∀ user_name pt password,
     User.group_names (__build_user (UserLine.mk user_name pt password ""))
     = []) ∧
  (∀ lines,
     peek "groups" (__build_config_block lines) =
     (λ n, VGroup (__build_group n)) <$> group_lines lines) ∧
  (∀ n : GroupLine.t,
     Group.user_names (__build_group n) =
     if truthy (GroupLine.users_fragment n)
     then split (GroupLine.users_fragment n) comma else []).
Proof.
  intros body userlist. split_and!; try done.
  intros lines. apply peek_groups.
Qed.

End Lines.

(** ** The assembler *)

Section Assembler.
Import config Parser.

Variable parse : string → result pegnode.tree.

Implicit Types (tree : list section_node) (c : Configuration.t).

Lemma for_section_nodes_app tree tree' c :
  for_section_nodes (tree ++ tree') c =
  for_section_nodes tree c ≫= for_section_nodes tree'.
Proof.
  revert c. induction tree as [|n tree IH]; intros c; [done|].
  simpl. destruct (configuration_section c n) as [c'|e]; simpl; [apply IH|done].
Qed.

(** A section that is not a global section leaves the global slot as it
    is. *)
Lemma configuration_section_globall c c' (n : section_node) :
  global_sections [n] = [] →
  configuration_section c n = Return c' →
  Configuration.globall c' = Configuration.globall c.
Proof.
  intros Hn Hc. destruct n as [g|f|d|l|u|b|text]; simpl in *;
    try discriminate Hn.
  - destruct (build_frontend f); simpl in Hc; by inversion Hc.
  - by inversion Hc.
  - destruct (build_listen l); simpl in Hc; by inversion Hc.
  - by inversion Hc.
  - by inversion Hc.
  - by inversion Hc.
Qed.

Lemma global_sections_cons (n : section_node) tree :
  global_sections (n :: tree) = [] →
  global_sections [n] = [] ∧ global_sections tree = [].
Proof.
  unfold global_sections. simpl. destruct n; simpl; try done.
Qed.

Lemma for_section_nodes_globall tree c c' :
  global_sections tree = [] →
  for_section_nodes tree c = Return c' →
  Configuration.globall c' = Configuration.globall c.
Proof.
  revert c. induction tree as [|n tree IH]; intros c Hnone Hc.
  - by inversion Hc.
  - apply global_sections_cons in Hnone as [Hn Htree].
    simpl in Hc.
    destruct (configuration_section c n) as [c1|e] eqn:Hstep; [|done].
    simpl in Hc. rewrite (IH c1 Htree Hc).
    by apply (configuration_section_globall c c1 n).
Qed.

Lemma build_configuration_parsed (self : Parser.t) tree :
  parse (filestring self) = Return tree →
  build_configuration parse self =
  (Parser.mk (filestring self) (Some tree),
   for_section_nodes tree (Configuration.new tree)).
Proof. intros Hparse. unfold build_configuration. by rewrite Hparse. Qed.

(** C5: when the parse tree has global sections, the global slot of the
    assembled Configuration is what [build_global] returns for the last of
    them ([g], followed by the sections [after], none of them global); the
    sections [before], with whatever global sections they have, make no
    difference to the slot. *)
Theorem last_global_wins (self : Parser.t) (before after : list section_node)
    (g : GlobalSection.t) (configuration : Configuration.t) :
  parse (filestring self) = Return (before ++ GlobalSection g :: after) →
  global_sections after = [] →
  (build_configuration parse self).2 = Return configuration →
  Configuration.globall configuration = Some (build_global g).
Proof.
  intros Hparse Hafter Hbuilt.
  rewrite (build_configuration_parsed _ _ Hparse) in Hbuilt. simpl in Hbuilt.
  rewrite for_section_nodes_app in Hbuilt.
  destruct (for_section_nodes before _) as [c1|e]; [|done].
  simpl in Hbuilt.
  by rewrite (for_section_nodes_globall _ _ _ Hafter Hbuilt).
Qed.

(** C7: for a path that has no file, or an empty one, the construction of
    the parser raises, so that no parser object exists and no Configuration
    is returned. *)
Theorem empty_input_raises (fs : filesystem) (filepath : string) :
  fs !! filepath = None ∨ fs !! filepath = Some "" →
  __init__ fs filepath =
    Raise (Exception ("error reading from file " +:+ filepath)) ∧
  parse_file parse fs filepath =
    Raise (Exception ("error reading from file " +:+ filepath)).
Proof.
  intros Hempty.
  assert (__init__ fs filepath =
          Raise (Exception ("error reading from file " +:+ filepath))) as Hinit.
  { unfold __init__, __read_string_from_file.
    by destruct Hempty as [-> | ->]. }
  split; [done|]. unfold parse_file. by rewrite Hinit.
Qed.

(** C9: what [build_configuration] returns is decided by the text the
    parser object holds: it is the same whatever tree an earlier call left
    in the object, and a second call on the object returns what the first
    did. *)
Theorem build_configuration_deterministic (text : string)
    (pegtree pegtree' : option pegnode.tree) :
  (build_configuration parse (Parser.mk text pegtree)).2 =
  (build_configuration parse (Parser.mk text pegtree')).2 ∧
  let first := build_configuration parse (Parser.mk text pegtree) in
  filestring first.1 = text ∧
  build_configuration parse first.1 = (first.1, first.2).
Proof.
  unfold build_configuration. simpl.
  destruct (parse text) as [tree|e] eqn:Hparse; simpl; rewrite ?Hparse; done.
Qed.

Lemma for_section_nodes_handled tree c :
  for_section_nodes tree c = for_section_nodes (List.filter handled tree) c.
Proof.
  revert c. induction tree as [|n tree IH]; intros c; [done|].
  destruct n; simpl; try (destruct (configuration_section c _); simpl; done);
    try apply IH.
  - destruct (build_frontend n); simpl; [apply IH|done].
  - destruct (build_listen n); simpl; [apply IH|done].
Qed.

(** C10: a section node of none of the six kinds raises nothing and adds
    nothing: the loop passes over it with the Configuration as it was, so
    that [build_configuration] returns (or raises) what the six kinds of
    nodes of the tree alone give. *)
Theorem other_section_skipped (self : Parser.t) :
  (∀ text c, configuration_section c (OtherSection text) = Return c) ∧
  (∀ tree c,
     for_section_nodes tree c =
     for_section_nodes (List.filter handled tree) c) ∧
  (build_configuration parse self).2 =
  match parse (filestring self) with
  | Return tree =>
    for_section_nodes (List.filter handled tree) (Configuration.new tree)
  | Raise e => Raise e
  end.
Proof.
  split_and!; [done|apply for_section_nodes_handled|].
  unfold build_configuration.
  destruct (parse (filestring self)); simpl; [|done].
  apply for_section_nodes_handled.
Qed.

End Assembler.

(** ** The properties at sample inputs *)

Section Samples.
Import config Parser.

Lemma last_global_wins_two_globals :
  (parse_two_globals (filestring (Parser.mk "global" None)) =
     Return ([GlobalSection global_1024;
              BackendSection (BackendSection.mk "app" [])] ++
             GlobalSection global_2048 :: [OtherSection "# end"]) ∧
   global_sections [OtherSection "# end"] = [] ∧
   (build_configuration parse_two_globals (Parser.mk "global" None)).2 =
     Return two_globals_configuration) ∧
  Configuration.globall two_globals_configuration =
    Some (build_global global_2048).
Proof.
  split; [split_and!; reflexivity|].
  apply (last_global_wins parse_two_globals (Parser.mk "global" None)
           [GlobalSection global_1024;
            BackendSection (BackendSection.mk "app" [])]
           [OtherSection "# end"] global_2048 two_globals_configuration);
    reflexivity.
Defined.

Lemma empty_input_raises_empty_file :
  (one_empty_file !! "haproxy.cfg" = None ∨
   one_empty_file !! "haproxy.cfg" = Some "") ∧
  parse_file parse_two_globals one_empty_file "haproxy.cfg" =
    Raise (Exception "error reading from file haproxy.cfg").
Proof.
  split; [right; reflexivity|].
  apply (empty_input_raises parse_two_globals one_empty_file "haproxy.cfg").
  right. reflexivity.
Defined.

End Samples.

(** * Further properties of the builders *)

(** ** What a built block holds *)

Section BlockContents.
Import config Parser.

Implicit Types (d : gmap string (list value)) (key : string).
Implicit Types (line : line_node) (lines : list line_node).

Lemma lookup_append key key' (x : value) d :
  append key x d !! key' =
  if decide (key = key') then Some (peek key d ++ [x]) else d !! key'.
Proof.
  unfold append, getitem, peek. case_decide as Hk.
  - subst. destruct (d !! key'); by rewrite lookup_insert_eq.
  - destruct (d !! key); by rewrite !lookup_insert_ne.
Qed.

(** A line is passed over, or it appends one value under one of the eight
    keys. *)
Lemma config_block_line_cases d line :
  (classified line = false ∧ config_block_line d line = d) ∨
  (classified line = true ∧
   ∃ key x, key ∈ block_keys ∧ config_block_line d line = append key x d).
Proof.
  destruct line; [right..|left]; try done;
    (split; [done|]); eexists _, _; (split; [|reflexivity]);
    unfold block_keys; set_solver.
Qed.

Lemma well_keyed_line d line :
  well_keyed d → well_keyed (config_block_line d line).
Proof.
  intros Hd. destruct (config_block_line_cases d line)
    as [[_ ->]|(_ & key & x & Hkey & ->)]; [done|].
  intros key' l. rewrite lookup_append. case_decide as Hk.
  - subst key'. intros [= <-]. split; [done|]. by destruct (peek key d).
  - apply Hd.
Qed.

Lemma well_keyed_fold lines d :
  well_keyed d → well_keyed (fold_left config_block_line lines d).
Proof.
  revert d. induction lines as [|line lines IH]; intros d Hd; [done|].
  simpl. by apply IH, well_keyed_line.
Qed.

Lemma fold_classified lines d :
  fold_left config_block_line lines d =
  fold_left config_block_line (List.filter classified lines) d.
Proof.
  revert d. induction lines as [|line lines IH]; intros d; [done|].
  destruct line; simpl; apply IH.
Qed.

Lemma peek_acls lines :
  peek "acls" (__build_config_block lines) =
  (λ n, VAcl (__build_acl n)) <$> acl_lines lines.
Proof.
  rewrite peek_build_config_block. apply concat_added_omap.
  by intros [].
Qed.

Lemma peek_usebackends lines :
  peek "usebackends" (__build_config_block lines) =
  (λ n, VUseBackend (__build_usebackend n)) <$> backend_lines lines.
Proof.
  rewrite peek_build_config_block. apply concat_added_omap.
  by intros [].
Qed.

Lemma added_total line :
  sum_list ((λ key, length (added key line)) <$> block_keys) =
  if classified line then 1 else 0.
Proof. by destruct line. Qed.

(** X1: the servers, binds, acls, usebackends and users of a built block
    are the entities built from the server, bind, acl, backend and user
    lines of the section, one per line and in the order of the lines. *)
Theorem entity_lists_order lines :
  let block := __build_config_block lines in
  peek "servers" block =
    (λ n, VServer (__build_server n)) <$> server_lines lines ∧
  peek "binds" block =
    (λ n, VBind (__build_bind n)) <$> bind_lines lines ∧
  peek "acls" block =
    (λ n, VAcl (__build_acl n)) <$> acl_lines lines ∧
  peek "usebackends" block =
    (λ n, VUseBackend (__build_usebackend n)) <$> backend_lines lines ∧
  peek "users" block =
    (λ n, VUser (__build_user n)) <$> user_lines lines.
Proof.
  intros block. split_and!.
  - apply peek_servers.
  - apply peek_binds.
  - apply peek_acls.
  - apply peek_usebackends.
  - apply peek_users.
Qed.

(** X2: a key that a built block holds is one of the eight, and the list
    under it is not empty: the block has no key for a kind of line the
    section does not have. *)
Theorem block_keys_hold_entries lines key (l : list value) :
  __build_config_block lines !! key = Some l →
  key ∈ block_keys ∧ l ≠ [] ∧ l = concat (map (added key) lines).
Proof.
  intros Hl. destruct (well_keyed_fold lines ∅) with key l as [Hkey Hne];
    [by intros ? ?; rewrite lookup_empty|done|].
  split_and!; [done..|].
  rewrite <- peek_build_config_block. unfold peek. by rewrite Hl.
Qed.

Lemma block_keys_hold_entries_maxconn :
  __build_config_block [maxconn "1024"; OtherLine ""] !! "configs" =
    Some [VTuple "maxconn" "1024"] ∧
  "configs" ∈ block_keys ∧ [VTuple "maxconn" "1024"] ≠ [].
Proof.
  split; [reflexivity|].
  pose proof (block_keys_hold_entries [maxconn "1024"; OtherLine ""]
                "configs" [VTuple "maxconn" "1024"] eq_refl)
    as (Hkey & Hne & _).
  by split.
Defined.

(** X3: the lines that are of none of the eight kinds (blank lines,
    comments) leave nothing in the block: the block is the one built from
    the other lines alone. *)
Theorem other_lines_dropped lines :
  __build_config_block lines =
  __build_config_block (List.filter classified lines).
Proof. apply fold_classified. Qed.

(** X4: the eight lists of a built block hold, together, as many values as
    the section has lines of the eight kinds: no such line is lost and
    none is entered twice. *)
Theorem block_holds_every_line lines :
  total_entries (__build_config_block lines) =
  length (List.filter classified lines).
Proof.
  unfold total_entries.
  rewrite (list_fmap_ext _ (λ key, length (concat (map (added key) lines)))
             block_keys)
    by (intros; by rewrite peek_build_config_block).
  induction lines as [|line lines IH]; [done|].
  pose proof (added_total line) as Hline.
  unfold block_keys in *. simpl in *.
  rewrite !length_app. destruct (classified line); simpl; lia.
Qed.

(** X5: the block of two runs of lines, one after the other, reads under
    every key as what the block of the first reads followed by what the
    block of the second reads. *)
Theorem block_of_appended_lines lines lines' key :
  peek key (__build_config_block (lines ++ lines')) =
  peek key (__build_config_block lines) ++
  peek key (__build_config_block lines').
Proof. by rewrite !peek_build_config_block, map_app, concat_app. Qed.

End BlockContents.

(** ** Names and attributes *)

Section Pieces.
Import config Parser.

Lemma length_split_char (c : ascii) (s : string) :
  length (split s (String c EmptyString)) = S (count_char c s).
Proof.
  unfold split. induction s as [|d s IH]; [done|].
  cbn [split_from String.prefix String.length count_char].
  pose proof (split_from_nonempty (String c EmptyString) 0 s) as Hne.
  destruct (ascii_dec c d) as [->|Hcd].
  - rewrite Ascii.eqb_refl.
    replace (String.prefix "" s) with true by (by destruct s).
    simpl. by rewrite IH.
  - apply Ascii.eqb_neq in Hcd as ->.
    destruct (split_from (String c "") 0 s) as [|p ps]; [done|].
    simpl in *. lia.
Qed.

(** What [fragment.split(',') if fragment else []] gives. *)
Lemma names_of_fragment (fragment : string) :
  let names := if truthy fragment then split fragment comma else [] in
  join comma names = fragment ∧
  Forall (λ name, contains name comma = false) names ∧
  length names =
    if truthy fragment then S (count_char ","%char fragment) else 0.
Proof.
  destruct fragment as [|c fragment]; [by repeat constructor|].
  cbn [truthy]. split_and!.
  - apply (join_split ","%char EmptyString).
  - apply (split_pieces ","%char EmptyString).
  - apply length_split_char.
Qed.

(** X6: the group names of a built User, joined by commas, are the groups
    fragment of the user line; no name has a comma in it; and there is one
    name more than the fragment has commas, but no name at all for the
    empty fragment.  The user names of a built Group are related in the
    same way to the users fragment of the group line. *)
Theorem names_split_at_commas (user_node : UserLine.t)
    (group_node : GroupLine.t) :
  let group_names := User.group_names (__build_user user_node) in
  let user_names := Group.user_names (__build_group group_node) in
  (join comma group_names = UserLine.groups_fragment user_node ∧
   Forall (λ name, contains name comma = false) group_names ∧
   length group_names =
     if truthy (UserLine.groups_fragment user_node)
     then S (count_char ","%char (UserLine.groups_fragment user_node))
     else 0) ∧
  (join comma user_names = GroupLine.users_fragment group_node ∧
   Forall (λ name, contains name comma = false) user_names ∧
   length user_names =
     if truthy (GroupLine.users_fragment group_node)
     then S (count_char ","%char (GroupLine.users_fragment group_node))
     else 0).
Proof.
  split.
  - apply (names_of_fragment (UserLine.groups_fragment user_node)).
  - apply (names_of_fragment (GroupLine.users_fragment group_node)).
Qed.


End Pieces.

(** ** The outcome of the section builders and of the assembler *)

Section Outcome.
Import config Parser.

Variable parse : string → result pegnode.tree.

Implicit Types (tree : list section_node) (c : Configuration.t).

Lemma build_frontend_returns (n : FrontendSection.t) :
  build_frontend n =
  if has_address (FrontendSection.service_address n)
                 (FrontendSection.config_block n)
  then build_frontend n
  else Raise (missing_address (FrontendSection n)).
Proof.
  destruct n as [name [address|] lines]; [done|]. simpl.
  destruct (bind_lines lines) eqn:Hbinds; [|done].
  by rewrite build_frontend_binds, Hbinds.
Qed.

Lemma build_listen_returns (n : ListenSection.t) :
  build_listen n =
  if has_address (ListenSection.service_address n)
                 (ListenSection.config_block n)
  then build_listen n
  else Raise (missing_address (ListenSection n)).
Proof.
  destruct n as [name [address|] lines]; [done|]. simpl.
  destruct (bind_lines lines) eqn:Hbinds; [|done].
  by rewrite build_listen_binds, Hbinds.
Qed.

Lemma has_address_frontend (n : FrontendSection.t) :
  returns (build_frontend n) =
  has_address (FrontendSection.service_address n)
              (FrontendSection.config_block n).
Proof.
  destruct n as [name [address|] lines]; [done|].
  rewrite build_frontend_binds. simpl. by destruct (bind_lines lines).
Qed.

Lemma has_address_listen (n : ListenSection.t) :
  returns (build_listen n) =
  has_address (ListenSection.service_address n)
              (ListenSection.config_block n).
Proof.
  destruct n as [name [address|] lines]; [done|].
  rewrite build_listen_binds. simpl. by destruct (bind_lines lines).
Qed.

Lemma configuration_section_returns c (n : section_node) :
  returns (configuration_section c n) = resolvable n.
Proof.
  destruct n as [g|f|d|l|u|b|text]; try done; simpl.
  - rewrite <- has_address_frontend. by destruct (build_frontend f).
  - rewrite <- has_address_listen. by destruct (build_listen l).
Qed.

Lemma configuration_section_raises c (n : section_node) :
  resolvable n = false →
  configuration_section c n = Raise (missing_address n).
Proof.
  destruct n as [g|f|d|l|u|b|text]; try done; simpl; intros Hn.
  - by rewrite build_frontend_returns, Hn.
  - by rewrite build_listen_returns, Hn.
Qed.

Lemma for_section_nodes_returns tree c :
  returns (for_section_nodes tree c) = forallb resolvable tree.
Proof.
  revert c. induction tree as [|n tree IH]; intros c; [done|].
  simpl. rewrite <- (configuration_section_returns c n).
  destruct (configuration_section c n) as [c1|e]; simpl; [apply IH|done].
Qed.

Lemma for_section_nodes_raises (before after : list section_node)
    (n : section_node) c :
  forallb resolvable before = true →
  resolvable n = false →
  for_section_nodes (before ++ n :: after) c = Raise (missing_address n).
Proof.
  intros Hbefore Hn. rewrite for_section_nodes_app.
  pose proof (for_section_nodes_returns before c) as Hret.
  rewrite Hbefore in Hret.
  destruct (for_section_nodes before c) as [c1|e]; [|done].
  simpl. by rewrite (configuration_section_raises c1 n Hn).
Qed.

(** The lists of the Configuration after the loop: each is the list before
    it, followed by what the builders return for the sections of its kind,
    in the order of the tree. *)
Lemma for_section_nodes_lists tree c c' :
  for_section_nodes tree c = Return c' →
  Configuration.pegtree c' = Configuration.pegtree c ∧
  Configuration.defaults c' =
    Configuration.defaults c ++ (build_defaults <$> defaults_sections tree) ∧
  Configuration.userlists c' =
    Configuration.userlists c ++ (build_userlist <$> userlist_sections tree) ∧
  Configuration.backends c' =
    Configuration.backends c ++ (build_backend <$> backend_sections tree) ∧
  ∃ fs ls,
    Configuration.frontends c' = Configuration.frontends c ++ fs ∧
    build_frontend <$> frontend_sections tree = Return <$> fs ∧
    Configuration.listens c' = Configuration.listens c ++ ls ∧
    build_listen <$> listen_sections tree = Return <$> ls.
Proof.
  unfold frontend_sections, listen_sections, defaults_sections,
    userlist_sections, backend_sections.
  revert c. induction tree as [|n tree IH]; intros c Hloop.
  - injection Hloop as <-. rewrite !app_nil_r. split_and!; try done.
    exists [], []. by rewrite !app_nil_r.
  - simpl in Hloop.
    destruct (configuration_section c n) as [c1|e] eqn:Hstep; [|done].
    simpl in Hloop.
    apply IH in Hloop as (Hp & Hd & Hu & Hb & fs & ls & Hf & Hfs & Hl & Hls).
    destruct n as [g|f|d|l|u|b|text]; simpl in Hstep.
    + injection Hstep as <-. simpl in *. split_and!; try done. by exists fs, ls.
    + destruct (build_frontend f) as [x|] eqn:Hx; [|done].
      injection Hstep as <-. simpl in *. split_and!; try done.
      exists (x :: fs), ls.
      split_and!; [by rewrite Hf, <- app_assoc| |done|done].
      rewrite Hx. change (Return <$> x :: fs) with (Return x :: (Return <$> fs)).
      f_equal. exact Hfs.
    + injection Hstep as <-. simpl in *. rewrite Hd, <- app_assoc.
      split_and!; try done. by exists fs, ls.
    + destruct (build_listen l) as [x|] eqn:Hx; [|done].
      injection Hstep as <-. simpl in *. split_and!; try done.
      exists fs, (x :: ls).
      split_and!; [done|done|by rewrite Hl, <- app_assoc|].
      rewrite Hx. change (Return <$> x :: ls) with (Return x :: (Return <$> ls)).
      f_equal. exact Hls.
    + injection Hstep as <-. simpl in *. rewrite Hu, <- app_assoc.
      split_and!; try done. by exists fs, ls.
    + injection Hstep as <-. simpl in *. rewrite Hb, <- app_assoc.
      split_and!; try done. by exists fs, ls.
    + injection Hstep as <-. split_and!; try done. by exists fs, ls.
Qed.

(** X8: when the recognizer gives a tree, [build_configuration] returns a
    Configuration exactly when every frontend and listen section of the
    tree has a header address or a bind line; the other kinds of sections
    never make it raise. *)
Theorem returns_iff_resolvable (self : Parser.t) tree :
  parse (filestring self) = Return tree →
  returns (build_configuration parse self).2 = forallb resolvable tree.
Proof.
  intros Hparse. rewrite (build_configuration_parsed parse _ _ Hparse).
  apply for_section_nodes_returns.
Qed.

(** X9: when a section of the tree has no address, [build_configuration]
    raises the exception of the first such section in the order of the
    tree (the message with `frontend` for a frontend section, with `listen`
    for a listen section), whatever sections come after it. *)
Theorem first_section_without_address_raises (self : Parser.t)
    (before after : list section_node) (n : section_node) :
  parse (filestring self) = Return (before ++ n :: after) →
  forallb resolvable before = true →
  resolvable n = false →
  (build_configuration parse self).2 = Raise (missing_address n).
Proof.
  intros Hparse Hbefore Hn.
  rewrite (build_configuration_parsed parse _ _ Hparse).
  by apply for_section_nodes_raises.
Qed.

(** X10: a Configuration that [build_configuration] returns holds the tree
    of the recognizer, and its defaults, userlists, backends, frontends and
    listens are what the builders return for the sections of each kind, one
    per section and in the order of the tree. *)
Theorem sections_in_source_order (self : Parser.t) tree
    (configuration : Configuration.t) :
  parse (filestring self) = Return tree →
  (build_configuration parse self).2 = Return configuration →
  Configuration.pegtree configuration = tree ∧
  Configuration.defaults configuration =
    build_defaults <$> defaults_sections tree ∧
  Configuration.userlists configuration =
    build_userlist <$> userlist_sections tree ∧
  Configuration.backends configuration =
    build_backend <$> backend_sections tree ∧
  build_frontend <$> frontend_sections tree =
    Return <$> Configuration.frontends configuration ∧
  build_listen <$> listen_sections tree =
    Return <$> Configuration.listens configuration.
Proof.
  intros Hparse Hbuilt.
  rewrite (build_configuration_parsed parse _ _ Hparse) in Hbuilt.
  apply for_section_nodes_lists in Hbuilt
    as (Hp & Hd & Hu & Hb & fs & ls & Hf & Hfs & Hl & Hls).
  simpl in *. by subst fs ls.
Qed.

(** X11: for a file that exists and is not empty, [Parser(filepath)] is
    built with the content of the file as its text, and
    [Parser(filepath).build_configuration()] is the assembly of the tree
    the recognizer gives for that content, or the recognizer's
    exception. *)
Theorem nonempty_file_is_parsed (fs : filesystem) (filepath content : string) :
  fs !! filepath = Some content →
  content ≠ EmptyString →
  __init__ fs filepath = Return (Parser.mk content None) ∧
  parse_file parse fs filepath =
    match parse content with
    | Return tree => for_section_nodes tree (Configuration.new tree)
    | Raise e => Raise e
    end.
Proof.
  intros Hfile Hcontent.
  assert (__init__ fs filepath = Return (Parser.mk content None)) as Hinit.
  { unfold __init__, __read_string_from_file. rewrite Hfile.
    by destruct content. }
  split; [done|]. unfold parse_file. rewrite Hinit. simpl.
  unfold build_configuration. simpl. by destruct (parse content).
Qed.

(** X12: [build_frontend] and [build_listen] resolve the address in the
    same way: for the same name, header address and lines both return, with
    the same name, host, port and block, or both raise. *)
Theorem frontend_and_listen_agree (name : string)
    (address : option ServiceAddress.t) (lines : list line_node) :
  match build_frontend (FrontendSection.mk name address lines),
        build_listen (ListenSection.mk name address lines) with
  | Return f, Return l =>
    Frontend.name f = Listen.name l ∧
    Frontend.host f = Listen.host l ∧
    Frontend.port f = Listen.port l ∧
    Frontend.config_block f = Listen.config_block l
  | Raise _, Raise _ => True
  | _, _ => False
  end.
Proof.
  destruct address as [address|]; [done|].
  rewrite build_frontend_binds, build_listen_binds.
  by destruct (bind_lines lines).
Qed.

End Outcome.

(** ** The further properties at sample inputs *)

Section MoreSamples.
Import config Parser.

Lemma returns_iff_resolvable_web_only :
  parse_web_only (filestring (Parser.mk "frontend web" None)) =
    Return web_only ∧
  returns
    (build_configuration parse_web_only (Parser.mk "frontend web" None)).2 =
  true.
Proof.
  split; [reflexivity|].
  apply (returns_iff_resolvable parse_web_only
           (Parser.mk "frontend web" None) web_only).
  reflexivity.
Defined.

Lemma first_section_without_address_raises_stats :
  (parse_web_then_stats (filestring (Parser.mk "listen stats" None)) =
     Return ([DefaultsSection (DefaultsSection.mk "http" [maxconn "100"]);
              FrontendSection frontend_web] ++
             ListenSection listen_stats ::
             [FrontendSection (FrontendSection.mk "late" None [])]) ∧
   forallb resolvable
     [DefaultsSection (DefaultsSection.mk "http" [maxconn "100"]);
      FrontendSection frontend_web] = true ∧
   resolvable (ListenSection listen_stats) = false) ∧
  (build_configuration parse_web_then_stats
     (Parser.mk "listen stats" None)).2 =
  Raise (Exception "Not specify host and port in `listen` definition").
Proof.
  split; [split_and!; reflexivity|].
  apply (first_section_without_address_raises parse_web_then_stats
           (Parser.mk "listen stats" None)
           [DefaultsSection (DefaultsSection.mk "http" [maxconn "100"]);
            FrontendSection frontend_web]
           [FrontendSection (FrontendSection.mk "late" None [])]
           (ListenSection listen_stats)); reflexivity.
Defined.

Lemma sections_in_source_order_web_only :
  ∃ configuration,
    (parse_web_only (filestring (Parser.mk "frontend web" None)) =
       Return web_only ∧
     (build_configuration parse_web_only
        (Parser.mk "frontend web" None)).2 = Return configuration) ∧
    Configuration.backends configuration =
      [build_backend (BackendSection.mk "app" [ServerLine server_web1])] ∧
    [build_frontend frontend_web] =
      Return <$> Configuration.frontends configuration.
Proof.
  eexists. split; [split; reflexivity|].
  pose proof (sections_in_source_order parse_web_only
                (Parser.mk "frontend web" None) web_only _
                eq_refl eq_refl) as (_ & _ & _ & Hb & Hf & _).
  split; [exact Hb|exact Hf].
Defined.

Lemma nonempty_file_is_parsed_global :
  (one_global_file !! "haproxy.cfg" = Some "global" ∧
   "global" ≠ EmptyString) ∧
  __init__ one_global_file "haproxy.cfg" = Return (Parser.mk "global" None).
Proof.
  split; [split; [reflexivity|discriminate]|].
  apply (nonempty_file_is_parsed parse_web_only one_global_file
           "haproxy.cfg" "global"); [reflexivity|discriminate].
Defined.

End MoreSamples.

(** ** The global slot without a global section *)

Section GlobalSlot.
Import config Parser.

(** X13: when the tree has no global section, the global slot of the
    returned Configuration is as the constructor of the Configuration left
    it: no builder of another kind of section writes to it. *)
Theorem no_global_section_leaves_slot
    (parse : string → result pegnode.tree) (self : Parser.t)
    (tree : list section_node) (configuration : Configuration.t) :
  parse (filestring self) = Return tree →
  global_sections tree = [] →
  (build_configuration parse self).2 = Return configuration →
  Configuration.globall configuration =
  Configuration.globall (Configuration.new tree).
Proof.
  intros Hparse Hnone Hbuilt.
  rewrite (build_configuration_parsed parse _ _ Hparse) in Hbuilt.
  by apply (for_section_nodes_globall tree _ _ Hnone) in Hbuilt.
Qed.

Lemma no_global_section_leaves_slot_web_only :
  ∃ configuration,
    (parse_web_only (filestring (Parser.mk "frontend web" None)) =
       Return web_only ∧
     global_sections web_only = [] ∧
     (build_configuration parse_web_only
        (Parser.mk "frontend web" None)).2 = Return configuration) ∧
    Configuration.globall configuration = None.
Proof.
  eexists. split; [split_and!; reflexivity|].
  apply (no_global_section_leaves_slot parse_web_only
           (Parser.mk "frontend web" None) web_only _
           eq_refl eq_refl eq_refl).
Defined.

End GlobalSlot.
